(** * Cart state manager (src/contexts/CartContext.tsx)

    A shallow embedding of the [CartProvider] component: its two pieces of
    state ([items], [loading]), the closure variable [user], the four calls
    it makes on the remote cart API, and the operations it exports.

    Conventions.
    - A quantity is an integer [Z], as the [cart_items.quantity] column is.
      A price is held exactly, as a [Z] of minor units, the value of the
      [decimal(10,2)] column; module [Binary64] holds the same data as the
      IEEE-754 doubles of JavaScript and [getTotalPrice] over them, which
      is where rounding shows.
    - An [async] function is run to completion: every [await] is a
      sequencing point and operations do not interleave.
    - [useState] cells are fields of the world; a setter is an assignment. *)

From Stdlib Require Import ZArith List String Bool Lia.
From Stdlib Require Import Floats.
Import ListNotations.

Local Open Scope string_scope.
Local Open Scope list_scope.
Local Open Scope Z_scope.

(** ** Data model *)

(** Modelled from the spec: the [Product] interface of src/types, of which
    the manager reads [price] only ("read-only reference data (name, price,
    stock, image, category)"). *)
Record Product := mkProduct {
  product_id : string;
  name : string;
  price : Z;
  stock_quantity : Z
}.

(** Modelled from the spec: the [CartItem] interface of src/types,
    "{ id, productId, quantity, associated Product snapshot (optional) }". *)
Record CartItem := mkCartItem {
  item_id : string;
  item_product_id : string;
  quantity : Z;
  product : option Product
}.

(** Modelled from the spec: the session user of [useAuth], an opaque
    identity of which only [user.id] is read. *)
Record User := mkUser { user_id : string }.

(** ** The remote cart API ([api] of src/lib/supabase)

    The four calls the manager issues.  The store behind them is an
    abstract type; a call maps it to a new store and either a failure (the
    rejected promise) or a value.  [getCartItems] may resolve to [null],
    hence the [option]. *)

Definition ApiFailure := string.

Module api.
Class CartApi (Remote : Type) := {
  getCartItems : string -> Remote -> Remote * (ApiFailure + option (list CartItem));
  addToCart : string -> string -> Z -> Remote -> Remote * (ApiFailure + unit);
  updateCartItem : string -> Z -> Remote -> Remote * (ApiFailure + unit);
  removeFromCart : string -> Remote -> Remote * (ApiFailure + unit)
}.
End api.

(** The remote calls, as they appear in the call log. *)
Inductive ApiCall :=
| GetCartItems (userId : string)
| AddToCart (userId productId : string) (quantity : Z)
| UpdateCartItem (itemId : string) (quantity : Z)
| RemoveFromCart (itemId : string).

Record CallRecord := mkCall { request : ApiCall; resolved : bool }.

(** ** Thrown values and completions *)

Inductive Thrown :=
| JsError (message : string)        (* [new Error(message)] *)
| Rejected (failure : ApiFailure).  (* a rejected API promise *)

Inductive Completion (A : Type) :=
| Normal (a : A)
| Throw (e : Thrown).
Arguments Normal {A} a.
Arguments Throw {A} e.

Definition not_logged_in : Thrown := JsError "User must be logged in".

(** ** The world: component state, remote store, observable effects *)

Section World.
Context {Remote : Type}.

Record World := mkWorld {
  items : list CartItem;                (* useState<CartItem[]>([]) *)
  loading : bool;                       (* useState(false) *)
  remote : Remote;                      (* the store behind [api] *)
  calls : list CallRecord;              (* remote calls issued so far *)
  console : list (string * Thrown)      (* console.error lines *)
}.

Definition initial (r : Remote) : World :=
  mkWorld [] false r [] [].

(** A computation of the component. *)
Definition M (A : Type) : Type := World -> Completion A * World.

Definition ret {A} (a : A) : M A := fun w => (Normal a, w).

Definition bind {A B} (m : M A) (k : A -> M B) : M B :=
  fun w =>
    match m w with
    | (Normal a, w1) => k a w1
    | (Throw e, w1) => (Throw e, w1)
    end.

Definition throw {A} (e : Thrown) : M A := fun w => (Throw e, w).

(** [try { body } catch (error) { handler } finally { fin }]: the
    finaliser runs on every path, and the completion of the statement is
    that of the body, or of the handler when the body threw, unless the
    finaliser itself throws. *)
Definition try_catch_finally (body : M unit) (handler : Thrown -> M unit)
    (fin : M unit) : M unit :=
  fun w =>
    let '(c, w1) :=
      match body w with
      | (Normal a, w1) => (Normal a, w1)
      | (Throw e, w1) => handler e w1
      end in
    match fin w1 with
    | (Normal _, w2) => (c, w2)
    | (Throw e, w2) => (Throw e, w2)
    end.

Definition setItems (l : list CartItem) : M unit :=
  fun w => (Normal tt, mkWorld l (loading w) (remote w) (calls w) (console w)).

Definition setLoading (b : bool) : M unit :=
  fun w => (Normal tt, mkWorld (items w) b (remote w) (calls w) (console w)).

Definition console_error (label : string) (error : Thrown) : M unit :=
  fun w =>
    (Normal tt,
     mkWorld (items w) (loading w) (remote w) (calls w)
             (console w ++ [(label, error)])).

(** [await api.f(...)]: the call is logged with its outcome, the store
    moves on, and a rejection is thrown at the [await]. *)
Definition await {A} (c : ApiCall) (f : Remote -> Remote * (ApiFailure + A)) : M A :=
  fun w =>
    let '(r, res) := f (remote w) in
    match res with
    | inr a =>
        (Normal a,
         mkWorld (items w) (loading w) r (calls w ++ [mkCall c true]) (console w))
    | inl e =>
        (Throw (Rejected e),
         mkWorld (items w) (loading w) r (calls w ++ [mkCall c false]) (console w))
    end.
End World.

Arguments World : clear implicits.
Arguments M : clear implicits.

Declare Scope cart_scope.
Delimit Scope cart_scope with cart.
Notation "x <- m ;; k" := (bind m (fun x => k))
  (at level 100, m at next level, right associativity) : cart_scope.
Notation "m ;; k" := (bind m (fun _ => k))
  (at level 100, right associativity) : cart_scope.

(** ** CartProvider *)

Section CartProvider.
Context {Remote : Type} `{Api : api.CartApi Remote}.

(** [const { user } = useAuth()]: the closure variable of one render. *)
Variable user : option User.

Local Open Scope cart_scope.

(** [cartItems || []] *)
Definition or_empty (cartItems : option (list CartItem)) : list CartItem :=
  match cartItems with
  | Some l => l
  | None => []
  end.

Definition refreshCart : M Remote unit :=
  match user with
  | None => setItems []
  | Some u =>
      setLoading true ;;
      try_catch_finally
        (cartItems <- await (GetCartItems (user_id u)) (api.getCartItems (user_id u)) ;;
         setItems (or_empty cartItems))
        (fun error => console_error "Error fetching cart:" error)
        (setLoading false)
  end.

(** [quantity: number = 1]: an omitted argument is [None]. *)
Definition addToCart (productId : string) (quantity : option Z) : M Remote unit :=
  let quantity := match quantity with Some q => q | None => 1 end in
  match user with
  | None => throw not_logged_in
  | Some u =>
      setLoading true ;;
      try_catch_finally
        (await (AddToCart (user_id u) productId quantity)
               (api.addToCart (user_id u) productId quantity) ;;
         refreshCart)
        (fun error => console_error "Error adding to cart:" error ;; throw error)
        (setLoading false)
  end.

Definition removeFromCart (itemId : string) : M Remote unit :=
  setLoading true ;;
  try_catch_finally
    (await (RemoveFromCart itemId) (api.removeFromCart itemId) ;;
     refreshCart)
    (fun error => console_error "Error removing from cart:" error ;; throw error)
    (setLoading false).

Definition updateQuantity (itemId : string) (quantity : Z) : M Remote unit :=
  if quantity <=? 0 then
    removeFromCart itemId
  else
    setLoading true ;;
    try_catch_finally
      (await (UpdateCartItem itemId quantity) (api.updateCartItem itemId quantity) ;;
       refreshCart)
      (fun error => console_error "Error updating cart item:" error ;; throw error)
      (setLoading false).

Definition clearCart : M Remote unit := setItems [].

(** [items.reduce((total, item) => total + item.quantity, 0)] *)
Definition getTotalItems (w : World Remote) : Z :=
  fold_left (fun total item => total + quantity item) (items w) 0.

(** [item.product?.price || 0]: an absent product gives [undefined], and
    a falsy price (0) gives the right operand. *)
Definition price_or_zero (item : CartItem) : Z :=
  match product item with
  | None => 0
  | Some p => if price p =? 0 then 0 else price p
  end.

(** The reduce of [getTotalPrice] over exact amounts (minor units): the
    total before rounding.  The double the code returns is
    [Binary64.getTotalPrice]. *)
Definition getTotalPrice (w : World Remote) : Z :=
  fold_left (fun total item => total + price_or_zero item * quantity item)
            (items w) 0.
End CartProvider.

(** ** Operations as data

    The operations a caller can invoke on the context value, so that
    statements can range over "every mutating operation" and over
    sequences of operations. *)

Inductive Op :=
| Refresh
| Add (productId : string) (quantity : option Z)
| Update (itemId : string) (quantity : Z)
| Remove (itemId : string)
| Clear.

Definition mutating (op : Op) : bool :=
  match op with
  | Add _ _ | Update _ _ | Remove _ => true
  | Refresh | Clear => false
  end.

Section Run.
Context {Remote : Type} `{Api : api.CartApi Remote}.

Definition run (user : option User) (op : Op) : M Remote unit :=
  match op with
  | Refresh => refreshCart user
  | Add productId quantity => addToCart user productId quantity
  | Update itemId quantity => updateQuantity user itemId quantity
  | Remove itemId => removeFromCart user itemId
  | Clear => clearCart
  end.

(** [useEffect(() => { refreshCart(); }, [user])]: the effect of a render
    in which the session user has changed. *)
Definition onUserChange (user : option User) : M Remote unit :=
  refreshCart user.

(** A session: operations invoked one after the other, each under the
    session user of its render; a caller that catches a rejection goes on
    with the next one. *)
Fixpoint exec (script : list (option User * Op)) (w : World Remote) : World Remote :=
  match script with
  | [] => w
  | (user, op) :: rest => exec rest (snd (run user op w))
  end.

(** The remote write an operation starts with under a given session
    user, if it issues one. *)
Definition write_of (user : option User) (op : Op) : option ApiCall :=
  match op, user with
  | Add productId quantity, Some u =>
      Some (AddToCart (user_id u) productId
                      (match quantity with Some q => q | None => 1 end))
  | Update itemId quantity, _ =>
      Some (if quantity <=? 0 then RemoveFromCart itemId
            else UpdateCartItem itemId quantity)
  | Remove itemId, _ => Some (RemoveFromCart itemId)
  | _, _ => None
  end.

(** The response of the store to a write, without the bookkeeping. *)
Definition respond (c : ApiCall) (r : Remote) : Remote * (ApiFailure + unit) :=
  match c with
  | GetCartItems userId =>
      let '(r1, res) := api.getCartItems userId r in
      (r1, match res with inl e => inl e | inr _ => inr tt end)
  | AddToCart userId productId quantity => api.addToCart userId productId quantity r
  | UpdateCartItem itemId quantity => api.updateCartItem itemId quantity r
  | RemoveFromCart itemId => api.removeFromCart itemId r
  end.

(** What a fresh [refresh()] by [u] would be handed by the API in store
    [r], when the call resolves. *)
Definition fresh_fetch (u : User) (r : Remote) : option (list CartItem) :=
  match snd (api.getCartItems (user_id u) r) with
  | inr cartItems => Some (or_empty cartItems)
  | inl _ => None
  end.

(** Reads are repeatable: two reads that both resolve, with no write in
    between, resolve to the same sequence. *)
Definition repeatable_reads : Prop :=
  forall userId r r1 x r2 y,
    api.getCartItems userId r = (r1, inr x) ->
    api.getCartItems userId r1 = (r2, inr y) ->
    x = y.

(** The last remote call in the log is a resolved [getCartItems] of [u]. *)
Definition fetched_last (u : User) (w : World Remote) : Prop :=
  last (calls w) (mkCall (GetCartItems "") false)
  = mkCall (GetCartItems (user_id u)) true.
End Run.

(** ** Reference sums, after the spec's words *)

(** "sum of quantities across all items" *)
Fixpoint sum_quantities (l : list CartItem) : Z :=
  match l with
  | [] => 0
  | item :: rest => quantity item + sum_quantities rest
  end.

(** "sum of (item price × quantity), treating a missing price as 0" *)
Definition line_total (item : CartItem) : Z :=
  match product item with
  | Some p => price p * quantity item
  | None => 0
  end.

Fixpoint sum_line_totals (l : list CartItem) : Z :=
  match l with
  | [] => 0
  | item :: rest => line_total item + sum_line_totals rest
  end.

(** ** An in-memory store *)

(** Modelled from the spec: a stand-in for the remote database behind
    src/lib/supabase, used to run the component on concrete inputs.  Rows
    are those of the [cart_items] table of the migration (one row per user
    and product); [addToCart] is an upsert; every call first consumes one
    entry of the outage script and fails when that entry is [true]. *)

Module Store.
Record Row := mkRow {
  row_id : string;
  row_user_id : string;
  row_product_id : string;
  row_quantity : Z
}.

Record t := mk {
  cart_items : list Row;
  products : list Product;
  outages : list bool
}.

Definition tick (s : t) : bool * t :=
  match outages s with
  | [] => (false, s)
  | down :: rest => (down, mk (cart_items s) (products s) rest)
  end.

Definition with_rows (rows : list Row) (s : t) : t :=
  mk rows (products s) (outages s).

Definition owned_by (userId : string) (row : Row) : bool :=
  String.eqb (row_user_id row) userId.

Definition to_item (catalogue : list Product) (row : Row) : CartItem :=
  mkCartItem (row_id row) (row_product_id row) (row_quantity row)
    (find (fun p => String.eqb (product_id p) (row_product_id row)) catalogue).

Definition same_line (userId productId : string) (row : Row) : bool :=
  String.eqb (row_user_id row) userId && String.eqb (row_product_id row) productId.

Definition set_quantity (q : Z) (row : Row) : Row :=
  mkRow (row_id row) (row_user_id row) (row_product_id row) q.

Definition guarded {A} (s : t) (k : t -> t * A) : t * (ApiFailure + A) :=
  let '(down, s1) := tick s in
  if down then (s1, inl "network error"%string)
  else let '(s2, a) := k s1 in (s2, inr a).

(** The rows of [userId], each joined with its product. *)
Definition view (userId : string) (s : t) : list CartItem :=
  map (to_item (products s)) (filter (owned_by userId) (cart_items s)).

Definition getCartItems (userId : string) (s : t) :=
  guarded s (fun s1 => (s1, Some (view userId s1))).

Definition addToCart (userId productId : string) (q : Z) (s : t) :=
  guarded s (fun s1 =>
    let rows := cart_items s1 in
    if existsb (same_line userId productId) rows then
      (with_rows (map (fun row => if same_line userId productId row
                                  then set_quantity q row else row) rows) s1, tt)
    else
      (with_rows (rows ++ [mkRow (userId ++ "/" ++ productId)%string userId productId q]) s1, tt)).

Definition updateCartItem (itemId : string) (q : Z) (s : t) :=
  guarded s (fun s1 =>
    (with_rows (map (fun row => if String.eqb (row_id row) itemId
                                then set_quantity q row else row)
                    (cart_items s1)) s1, tt)).

Definition removeFromCart (itemId : string) (s : t) :=
  guarded s (fun s1 =>
    (with_rows (filter (fun row => negb (String.eqb (row_id row) itemId))
                       (cart_items s1)) s1, tt)).

#[global] Instance store_api : api.CartApi t := {
  api.getCartItems := getCartItems;
  api.addToCart := addToCart;
  api.updateCartItem := updateCartItem;
  api.removeFromCart := removeFromCart
}.
End Store.

(** Concrete data for running the component. *)
Definition alice : User := mkUser "alice".
Definition mug : Product := mkProduct "mug" "Mug" 1250 8.
Definition mug_row : Store.Row := Store.mkRow "alice/mug" "alice" "mug" 2.
Definition mug_item : CartItem := mkCartItem "alice/mug" "mug" 2 (Some mug).
Definition orphan_item : CartItem := mkCartItem "alice/gone" "gone" 3 None.

(** ** The common shape of the three writes

    [addToCart] (with a session user), [updateQuantity] (positive
    quantity) and [removeFromCart] are the same statement up to the call
    and the label of the log line; the proofs go through this shape. *)

Definition label_of (c : ApiCall) : string :=
  match c with
  | GetCartItems _ => "Error fetching cart:"
  | AddToCart _ _ _ => "Error adding to cart:"
  | UpdateCartItem _ _ => "Error updating cart item:"
  | RemoveFromCart _ => "Error removing from cart:"
  end.

Definition write_then_refresh {Remote : Type} `{Api : api.CartApi Remote}
    (user : option User) (c : ApiCall) : M Remote unit :=
  (setLoading true ;;
   try_catch_finally
     (await c (respond c) ;; refreshCart user)
     (fun error => console_error (label_of c) error ;; throw error)
     (setLoading false))%cart.

(** The claims of the specification as predicates on the component, in
    the form the specification gives them. *)

Section Claims.
Context {Remote : Type} `{Api : api.CartApi Remote}.

(** "After any successful mutating operation, the local item set exactly
    equals what the Remote Cart API would return for a fresh refresh()." *)
Definition no_drift (u : User) (op : Op) (w : World Remote) : Prop :=
  forall w',
    run (Some u) op w = (Normal tt, w') ->
    forall l, fresh_fetch u (remote w') = Some l -> items w' = l.

(** "not authenticated: raised synchronously before any network call when
    a mutating operation is attempted without a session user." *)
Definition rejects_unauthenticated (op : Op) (w : World Remote) : Prop :=
  exists w',
    run None op w = (Throw not_logged_in, w') /\ calls w' = calls w.

(** "The busy flag is false once the operation has completed." *)
Definition clears_busy (user : option User) (op : Op) (w : World Remote) : Prop :=
  loading (snd (run user op w)) = false.

(** Whether an operation, run under [user], goes through a
    [setLoading(true)] ... [finally { setLoading(false) }] bracket. *)
Definition sets_busy (user : option User) (op : Op) : bool :=
  match op, user with
  | Refresh, Some _ | Add _ _, Some _ => true
  | Update _ _, _ | Remove _, _ => true
  | _, _ => false
  end.

(** The operations that carry no session check of their own. *)
Definition unguarded (op : Op) : bool :=
  match op with
  | Update _ _ | Remove _ => true
  | _ => false
  end.
End Claims.

(** ** ProductCard (the tile of one product, with its add-to-cart button)

    The component reads [addToCart] from [useCart()] and [user] from
    [useAuth()], the provider whose value [CartProvider] reads too, so the
    tile and the cart manager share one session user.  [e.preventDefault()]
    acts on the click event only and is not part of the world. *)

(** [try { body } catch (error) { handler }] *)
Definition try_catch {Remote : Type} (body : M Remote unit)
    (handler : Thrown -> M Remote unit) : M Remote unit :=
  fun w =>
    match body w with
    | (Normal a, w1) => (Normal a, w1)
    | (Throw e, w1) => handler e w1
    end.

Section ProductCard.
Context {Remote : Type} `{Api : api.CartApi Remote}.
Variable user : option User.
Variable product : Product.

Definition handleAddToCart : M Remote unit :=
  match user with
  | None => ret tt
  | Some _ =>
      try_catch
        (addToCart user (product_id product) None)
        (fun error => console_error "Error adding to cart:" error)
  end.

(** [product.stock_quantity < 10 && product.stock_quantity > 0 && (...)]:
    the "Only n left" badge is rendered. *)
Definition lowStockBadge : bool :=
  (stock_quantity product <? 10) && (stock_quantity product >? 0).

(** [product.stock_quantity === 0 && (...)]: the "Out of Stock" overlay is
    rendered. *)
Definition outOfStockOverlay : bool :=
  stock_quantity product =? 0.

(** [disabled={product.stock_quantity === 0 || !user}] *)
Definition addDisabled : bool :=
  (stock_quantity product =? 0)
  || match user with Some _ => false | None => true end.
End ProductCard.

(** ** Vocabulary for the call log and the console *)

Definition is_write (c : ApiCall) : bool :=
  match c with
  | GetCartItems _ => false
  | _ => true
  end.

(** A call that names a user names the session user. *)
Definition scoped (user : option User) (c : ApiCall) : bool :=
  match c, user with
  | GetCartItems userId, Some u | AddToCart userId _ _, Some u =>
      String.eqb userId (user_id u)
  | GetCartItems _, None | AddToCart _ _ _, None => false
  | _, _ => true
  end.

Definition resolves {A : Type} (res : ApiFailure + A) : bool :=
  match res with
  | inr _ => true
  | inl _ => false
  end.

Section Traces.
Context {Remote : Type} `{Api : api.CartApi Remote}.

(** The calls a [refreshCart] adds to the log in store [r]. *)
Definition fetch_trace (user : option User) (r : Remote) : list CallRecord :=
  match user with
  | None => []
  | Some u =>
      [mkCall (GetCartItems (user_id u))
              (resolves (snd (api.getCartItems (user_id u) r)))]
  end.

(** The calls an operation adds to the log. *)
Definition trace (user : option User) (op : Op) (w : World Remote) : list CallRecord :=
  match write_of user op with
  | Some c =>
      let '(r, res) := respond c (remote w) in
      if resolves res then mkCall c true :: fetch_trace user r
      else [mkCall c false]
  | None =>
      match op with
      | Refresh => fetch_trace user (remote w)
      | _ => []
      end
  end.

(** The log lines the rejected calls of a log account for. *)
Definition failure_labels (cs : list CallRecord) : list string :=
  map (fun c => label_of (request c)) (filter (fun c => negb (resolved c)) cs).

(** Every log line is that of a rejected call, in order, and every
    rejected call has its line. *)
Definition logged (w : World Remote) : Prop :=
  map fst (console w) = failure_labels (calls w).
End Traces.

(** An item whose quantity and price are not negative. *)
Definition well_priced (item : CartItem) : Prop :=
  0 <= quantity item
  /\ match product item with
     | Some p => 0 <= price p
     | None => True
     end.

(** ** Prices as doubles

    [price] and [quantity] are JavaScript numbers, that is, binary64
    floats, and [getTotalPrice] multiplies and adds them as such.  The
    module repeats the two records with [float] fields and the getter over
    them; [of_item] gives the doubles the component holds for a row whose
    price is a [decimal(10,2)] value. *)

Module Binary64.
Record Product := mkProduct { price : float }.

Record CartItem := mkCartItem {
  quantity : float;
  product : option Product
}.

(** The numbers that are falsy on the left of [||]: 0, -0 and NaN. *)
Definition falsy (x : float) : bool :=
  (x =? 0)%float || negb (x =? x)%float.

(** [item.product?.price || 0] *)
Definition price_or_zero (item : CartItem) : float :=
  match product item with
  | None => 0%float
  | Some p => if falsy (price p) then 0%float else price p
  end.

(** [items.reduce((total, item) => total + (price * item.quantity), 0)] *)
Definition getTotalPrice (items : list CartItem) : float :=
  fold_left (fun total item => (total + price_or_zero item * quantity item)%float)
            items 0%float.


(** The double of an integer (exact below 2^53). *)
Definition number (z : Z) : float :=
  if z <? 0 then (- of_uint63 (Uint63.of_Z (- z)))%float
  else of_uint63 (Uint63.of_Z z).

(** The double a decimal amount of [minor] hundredths is read as: the
    double nearest to [minor / 100]. *)
Definition decimal (minor : Z) : float :=
  (number minor / number 100)%float.
End Binary64.

(** The doubles of a cart line. *)
Definition of_item (item : CartItem) : Binary64.CartItem :=
  Binary64.mkCartItem
    (Binary64.number (quantity item))
    (match product item with
     | Some p => Some (Binary64.mkProduct (Binary64.decimal (price p)))
     | None => None
     end).


(** * Properties *)

Section Properties.
Context {Remote : Type} `{Api : api.CartApi Remote}.

Ltac unfold_ops :=
  unfold run, onUserChange, addToCart, updateQuantity, removeFromCart,
    clearCart, write_then_refresh, refreshCart, try_catch_finally, bind,
    throw, ret, await, setItems, setLoading, console_error, respond in *.

Lemma refreshCart_none (w : World Remote) :
  refreshCart None w
  = (Normal tt, mkWorld [] (loading w) (remote w) (calls w) (console w)).
Proof. reflexivity. Qed.

Lemma refreshCart_resolved (u : User) (w : World Remote) r x :
  api.getCartItems (user_id u) (remote w) = (r, inr x) ->
  refreshCart (Some u) w
  = (Normal tt,
     mkWorld (or_empty x) false r
             (calls w ++ [mkCall (GetCartItems (user_id u)) true]) (console w)).
Proof. intros E. unfold_ops. cbn. rewrite E. reflexivity. Qed.

Lemma refreshCart_rejected (u : User) (w : World Remote) r e :
  api.getCartItems (user_id u) (remote w) = (r, inl e) ->
  refreshCart (Some u) w
  = (Normal tt,
     mkWorld (items w) false r
             (calls w ++ [mkCall (GetCartItems (user_id u)) false])
             (console w ++ [("Error fetching cart:", Rejected e)])).
Proof. intros E. unfold_ops. cbn. rewrite E. reflexivity. Qed.

(** [refreshCart] never throws. *)
Lemma refreshCart_normal (user : option User) (w : World Remote) :
  fst (refreshCart user w) = Normal tt.
Proof.
  destruct user as [u|]; [|reflexivity].
  destruct (api.getCartItems (user_id u) (remote w)) as [r [e|x]] eqn:E.
  - rewrite (refreshCart_rejected _ _ _ _ E). reflexivity.
  - rewrite (refreshCart_resolved _ _ _ _ E). reflexivity.
Qed.

(** Every write operation is an instance of the common shape. *)
Lemma run_write (user : option User) (op : Op) (c : ApiCall) (w : World Remote) :
  write_of user op = Some c ->
  run user op w = write_then_refresh user c w.
Proof.
  destruct op as [|p q|i q|i|]; cbn [write_of]; try discriminate.
  - destruct user as [u|]; [|discriminate].
    intros [= <-]. reflexivity.
  - intros [= <-]. cbn [run]. unfold updateQuantity.
    destruct (q <=? 0); reflexivity.
  - intros [= <-]. reflexivity.
Qed.

Lemma mutating_write (u : User) (op : Op) :
  mutating op = true -> exists c, write_of (Some u) op = Some c.
Proof. destruct op; cbn; try discriminate; eauto. Qed.

Lemma unguarded_write (op : Op) :
  unguarded op = true -> exists c, write_of None op = Some c.
Proof. destruct op; cbn; try discriminate; eauto. Qed.

(** The write is rejected: logged, rethrown, and no refresh. *)
Lemma write_rejected (user : option User) (c : ApiCall) (w : World Remote) r e :
  respond c (remote w) = (r, inl e) ->
  write_then_refresh user c w
  = (Throw (Rejected e),
     mkWorld (items w) false r (calls w ++ [mkCall c false])
             (console w ++ [(label_of c, Rejected e)])).
Proof.
  intros E. unfold write_then_refresh, try_catch_finally, bind, await,
    setLoading, console_error, throw. cbn. rewrite E. reflexivity.
Qed.

(** The write resolves: the refresh runs on the state it leaves, and the
    busy flag is cleared after it. *)
Lemma write_resolved (user : option User) (c : ApiCall) (w : World Remote) r :
  respond c (remote w) = (r, inr tt) ->
  write_then_refresh user c w
  = let w1 := snd (refreshCart user
                     (mkWorld (items w) true r (calls w ++ [mkCall c true])
                              (console w))) in
    (Normal tt, mkWorld (items w1) false (remote w1) (calls w1) (console w1)).
Proof.
  intros E. unfold write_then_refresh, try_catch_finally, bind, await,
    setLoading. cbn. rewrite E.
  pose proof (refreshCart_normal user
    (mkWorld (items w) true r (calls w ++ [mkCall c true]) (console w))) as N.
  destruct (refreshCart user _) as [k w1]. cbn in N. subst k. reflexivity.
Qed.

(** Busy flag: what each operation leaves in it. *)
Lemma write_clears_loading (user : option User) (c : ApiCall) (w : World Remote) :
  loading (snd (write_then_refresh user c w)) = false.
Proof.
  destruct (respond c (remote w)) as [r [e|[]]] eqn:E.
  - rewrite (write_rejected _ _ _ _ _ E). reflexivity.
  - rewrite (write_resolved _ _ _ _ E). reflexivity.
Qed.

Lemma refreshCart_loading (user : option User) (w : World Remote) :
  loading (snd (refreshCart user w))
  = match user with Some _ => false | None => loading w end.
Proof.
  destruct user as [u|]; [|reflexivity].
  destruct (api.getCartItems (user_id u) (remote w)) as [r [e|x]] eqn:E.
  - rewrite (refreshCart_rejected _ _ _ _ E). reflexivity.
  - rewrite (refreshCart_resolved _ _ _ _ E). reflexivity.
Qed.

Lemma run_loading (user : option User) (op : Op) (w : World Remote) :
  loading (snd (run user op w))
  = if sets_busy user op then false else loading w.
Proof.
  destruct (write_of user op) as [c|] eqn:W.
  - rewrite (run_write _ _ _ _ W), write_clears_loading.
    destruct op, user; cbn in W |- *; congruence.
  - destruct op as [|p q|i q|i|]; cbn in W; try discriminate.
    + cbn [run]. rewrite refreshCart_loading. destruct user; reflexivity.
    + destruct user; [discriminate|]. reflexivity.
    + destruct user; reflexivity.
Qed.

Lemma run_keeps_idle (user : option User) (op : Op) (w : World Remote) :
  loading w = false -> loading (snd (run user op w)) = false.
Proof.
  intros Idle. rewrite run_loading, Idle.
  destruct (sets_busy user op); reflexivity.
Qed.

Lemma exec_keeps_idle (script : list (option User * Op)) :
  forall w : World Remote, loading w = false -> loading (exec script w) = false.
Proof.
  induction script as [|[user op] rest IH]; intros w Idle; cbn [exec].
  - exact Idle.
  - apply IH, run_keeps_idle, Idle.
Qed.

(** The two folds of the getters against the reference sums. *)
Lemma fold_quantities (l : list CartItem) :
  forall acc,
    fold_left (fun total item => total + quantity item) l acc
    = acc + sum_quantities l.
Proof.
  induction l as [|item rest IH]; intros acc; cbn [fold_left sum_quantities].
  - lia.
  - rewrite IH. lia.
Qed.

Lemma price_or_zero_line (item : CartItem) :
  price_or_zero item * quantity item = line_total item.
Proof.
  unfold price_or_zero, line_total.
  destruct (product item) as [p|]; [|reflexivity].
  destruct (Z.eqb_spec (price p) 0) as [Zero|_]; [rewrite Zero|]; reflexivity.
Qed.

Lemma fold_line_totals (l : list CartItem) :
  forall acc,
    fold_left (fun total item => total + price_or_zero item * quantity item) l acc
    = acc + sum_line_totals l.
Proof.
  induction l as [|item rest IH]; intros acc; cbn [fold_left sum_line_totals].
  - lia.
  - rewrite IH, price_or_zero_line. lia.
Qed.

(** ** Reconciliation after a write *)

(** C1 (as amended): for every mutating operation and every prior state,
    under a session user, once the remote write has resolved: if the
    getCartItems call of the refresh step resolves, the operation
    completes successfully and the local item set is the sequence that
    call returned, which is exactly the sequence a fresh refresh() would
    be handed by the Remote Cart API, reads of the API being repeatable;
    if that getCartItems call is rejected, the operation completes
    successfully all the same, with the local item set it started from. *)
Theorem C1_no_drift_when_fetch_resolves
    (u : User) (op : Op) (c : ApiCall) (w : World Remote) (r : Remote) :
  repeatable_reads ->
  write_of (Some u) op = Some c ->
  respond c (remote w) = (r, inr tt) ->
  (forall r1 x,
      api.getCartItems (user_id u) r = (r1, inr x) ->
      exists w',
        run (Some u) op w = (Normal tt, w')
        /\ items w' = or_empty x
        /\ forall l, fresh_fetch u (remote w') = Some l -> items w' = l)
  /\ (forall r1 e,
         api.getCartItems (user_id u) r = (r1, inl e) ->
         exists w',
           run (Some u) op w = (Normal tt, w') /\ items w' = items w).
Proof.
  intros Rep W E.
  split; intros r1 x G;
    rewrite (run_write _ _ _ _ W), (write_resolved _ _ _ _ E); cbn zeta.
  - rewrite (refreshCart_resolved u _ r1 x) by exact G.
    eexists. split; [reflexivity|]. split; [reflexivity|].
    cbn. intros l Fresh. unfold fresh_fetch in Fresh.
    destruct (api.getCartItems (user_id u) r1) as [r2 [e|y]] eqn:G2;
      cbn in Fresh; [discriminate|].
    injection Fresh as <-. f_equal. exact (Rep _ _ _ _ _ _ G G2).
  - rewrite (refreshCart_rejected u _ r1 x) by exact G.
    eexists. split; reflexivity.
Qed.

(** ** The session check *)

(** C2 (as amended): addToCart invoked while no session user is present
    raises the "User must be logged in" error before any remote call and
    leaves the whole state as it was; updateQuantity and removeFromCart
    carry no session check: with no session user they issue their remote
    write first and never raise that error. *)
Theorem C2_session_check_on_addToCart_only (op : Op) (w : World Remote) :
  (forall productId quantity,
      run None (Add productId quantity) w = (Throw not_logged_in, w)) /\
  (unguarded op = true ->
   exists c ok,
     write_of None op = Some c /\
     calls (snd (run None op w)) = calls w ++ [mkCall c ok] /\
     fst (run None op w) <> Throw not_logged_in).
Proof.
  split; [reflexivity|].
  intros U. destruct (unguarded_write op U) as [c W].
  exists c. rewrite (run_write _ _ _ _ W).
  destruct (respond c (remote w)) as [r [e|[]]] eqn:E.
  - exists false. rewrite (write_rejected _ _ _ _ _ E). cbn.
    split; [exact W|]. split; [reflexivity|discriminate].
  - exists true. rewrite (write_resolved _ _ _ _ E). cbn.
    split; [exact W|]. split; [reflexivity|discriminate].
Qed.

(** ** Delegation of non-positive quantities *)

(** C3: for every itemId and every quantity q <= 0, updateQuantity(itemId,
    q) is removeFromCart(itemId): the same completion (hence the same
    error behaviour) and the same resulting world, that is, the same
    items, busy flag, remote store, remote calls and log lines. *)
Theorem C3_updateQuantity_nonpositive_is_remove
    (user : option User) (itemId : string) (q : Z) (w : World Remote) :
  q <= 0 ->
  updateQuantity user itemId q w = removeFromCart user itemId w.
Proof.
  intros Le. unfold updateQuantity.
  destruct (Z.leb_spec q 0) as [_|Gt]; [reflexivity|lia].
Qed.

(** ** refresh() *)

(** C4: for every prior local item set, when refresh() runs under a
    session user and the getCartItems call is rejected, the local item
    set is exactly what it was and refresh() completes normally, the
    failure being logged and not propagated. *)
Theorem C4_refresh_failure_keeps_items
    (u : User) (w : World Remote) (r : Remote) (e : ApiFailure) :
  api.getCartItems (user_id u) (remote w) = (r, inl e) ->
  exists w',
    refreshCart (Some u) w = (Normal tt, w') /\
    items w' = items w /\
    console w' = console w ++ [("Error fetching cart:", Rejected e)].
Proof.
  intros E. rewrite (refreshCart_rejected _ _ _ _ E).
  eexists. repeat split.
Qed.

(** C5: refresh() invoked with no session user (directly, or by the effect
    of the session user becoming absent) empties the local item set,
    issues no remote call, and leaves the busy flag, the remote store and
    the log as they were. *)
Theorem C5_refresh_without_user_clears_locally (w : World Remote) :
  refreshCart None w
  = (Normal tt, mkWorld [] (loading w) (remote w) (calls w) (console w))
  /\ onUserChange None w = refreshCart None w.
Proof. split; reflexivity. Qed.

(** ** Derived aggregates *)

(** C6: for every local item set, getTotalItems() is the sum of the
    quantity fields of the items, 0 for the empty set; it is a function
    of the item set alone and returns no new state. *)
Theorem C6_getTotalItems_is_sum_of_quantities (w : World Remote) :
  getTotalItems w = sum_quantities (items w)
  /\ (forall lo (r : Remote) cs k, getTotalItems (mkWorld [] lo r cs k) = 0)
  /\ (forall lo (r : Remote) cs k,
         getTotalItems (mkWorld (items w) lo r cs k) = getTotalItems w).
Proof.
  unfold getTotalItems. split; [|split].
  - apply (fold_quantities (items w) 0).
  - reflexivity.
  - reflexivity.
Qed.






(** ** clearCart() *)

(** C8: for every state, clearCart() empties the local item set, issues
    no remote call, and leaves the busy flag and the remote store (the
    server-side cart rows) as they were. *)
Theorem C8_clearCart_is_local (w : World Remote) :
  clearCart w
  = (Normal tt, mkWorld [] (loading w) (remote w) (calls w) (console w)).
Proof. reflexivity. Qed.

(** ** The busy flag *)

(** C9 (as amended): an operation that raises the busy flag (refresh and
    addToCart under a session user, updateQuantity, removeFromCart) leaves
    it false once it has completed, from every state and on every path
    (resolved or rejected remote calls, normal or throwing completion);
    refresh and addToCart with no session user, and clearCart, never touch
    the flag and leave it as they found it.  Hence the flag is false after
    every operation of a sequence run one after the other from the initial
    state. *)
Theorem C9_busy_flag_cleared
    (r : Remote) (script : list (option User * Op)) (user : option User) (op : Op) :
  loading (snd (run user op (exec script (initial r)))) = false
  /\ (forall w : World Remote,
         loading (snd (run user op w))
         = if sets_busy user op then false else loading w).
Proof.
  split.
  - apply run_keeps_idle, exec_keeps_idle. reflexivity.
  - intros w. apply run_loading.
Qed.

(** ** A rejected write *)

(** C10: for every mutating operation, when the remote write it issues is
    rejected, the operation throws that same rejection to its caller, the
    local item set is exactly the one held before, and the write is the
    only remote call made (the refresh is not attempted). *)
Theorem C10_rejected_write_keeps_items
    (user : option User) (op : Op) (c : ApiCall) (w : World Remote)
    (r : Remote) (e : ApiFailure) :
  write_of user op = Some c ->
  respond c (remote w) = (r, inl e) ->
  exists w',
    run user op w = (Throw (Rejected e), w') /\
    items w' = items w /\
    calls w' = calls w ++ [mkCall c false].
Proof.
  intros W E. rewrite (run_write _ _ _ _ W), (write_rejected _ _ _ _ _ E).
  eexists. repeat split.
Qed.
End Properties.

(** * The component on the in-memory store *)

(** An empty cart, the mug in the catalogue, the network up for the write
    and down for the read that follows it. *)
Definition flaky_world : World Store.t :=
  initial (Store.mk [] [mug] [false; true]).

(** One row of alice's in the store, nothing fetched yet, the network up. *)
Definition steady_world : World Store.t :=
  initial (Store.mk [mug_row] [mug] []).

(** The same store with the network down for the next call. *)
Definition offline_world : World Store.t :=
  mkWorld [mug_item] false (Store.mk [mug_row] [mug] [true]) [] [].

Example add_then_fetch :
  items (snd (run (Some alice) (Add "mug" (Some 2)) (initial (Store.mk [] [mug] []))))
  = [mug_item].
Proof. reflexivity. Qed.

Example add_default_quantity :
  calls (snd (run (Some alice) (Add "mug" None) (initial (Store.mk [] [mug] []))))
  = [mkCall (AddToCart "alice" "mug" 1) true; mkCall (GetCartItems "alice") true].
Proof. reflexivity. Qed.

Example remove_then_fetch :
  items (snd (run (Some alice) (Remove "alice/mug") steady_world)) = [].
Proof. reflexivity. Qed.

Example totals_of_two_lines :
  let w := mkWorld [mug_item; orphan_item] false (Store.mk [] [] []) [] [] in
  getTotalItems w = 5 /\ getTotalPrice w = 2500.
Proof. split; reflexivity. Qed.

(** Reads of the in-memory store do not touch its rows or its catalogue. *)
Lemma store_read (userId : string) (s s1 : Store.t) x :
  api.getCartItems userId s = (s1, inr x) ->
  x = Some (Store.view userId s)
  /\ Store.cart_items s1 = Store.cart_items s
  /\ Store.products s1 = Store.products s.
Proof.
  cbn. unfold Store.getCartItems, Store.guarded, Store.tick.
  destruct (Store.outages s) as [|[|] rest]; intros [= <- <-]; auto.
Qed.

Lemma store_reads_repeatable : repeatable_reads (Api := Store.store_api).
Proof.
  intros userId r r1 x r2 y G1 G2.
  apply store_read in G1 as (-> & Rows & Cat).
  apply store_read in G2 as (-> & _ & _).
  unfold Store.view. rewrite Rows, Cat. reflexivity.
Qed.

(** C1, counterexample: alice adds the mug; the write resolves, the read of
    the refresh is rejected and swallowed, and addToCart completes normally
    with the empty item set it started from, whereas a fresh refresh()
    would be handed the new row. *)
Lemma C1_drift_after_swallowed_fetch :
  ~ no_drift alice (Add "mug" (Some 2)) flaky_world.
Proof.
  intros H.
  pose proof (H (snd (run (Some alice) (Add "mug" (Some 2)) flaky_world))
                eq_refl [mug_item] eq_refl) as D.
  discriminate D.
Qed.

(** A line of alice's held locally and stored remotely, the network up. *)
Definition synced_world : World Store.t :=
  mkWorld [mug_item] false (Store.mk [mug_row] [mug] []) [] [].

Lemma C1_no_drift_witness :
  (exists w',
      run (Some alice) (Remove "alice/mug") synced_world = (Normal tt, w')
      /\ items w' = []
      /\ forall l, fresh_fetch alice (remote w') = Some l -> items w' = l)
  /\ (exists w',
         run (Some alice) (Add "mug" (Some 2)) flaky_world = (Normal tt, w')
         /\ items w' = items flaky_world).
Proof.
  split.
  - apply (proj1 (C1_no_drift_when_fetch_resolves alice (Remove "alice/mug")
                    (RemoveFromCart "alice/mug") synced_world
                    (Store.mk [] [mug] [])
                    store_reads_repeatable eq_refl eq_refl)
                 (Store.mk [] [mug] []) (Some [])).
    reflexivity.
  - apply (proj2 (C1_no_drift_when_fetch_resolves alice (Add "mug" (Some 2))
                    (AddToCart "alice" "mug" 2) flaky_world
                    (Store.mk [mug_row] [mug] [true])
                    store_reads_repeatable eq_refl eq_refl)
                 (Store.mk [mug_row] [mug] []) "network error"%string).
    reflexivity.
Defined.

(** C7, counterexample: the headphones once, the t-shirt and the coffee
    maker twice, at the seeded prices 199.99, 29.99 and 89.99.  The exact
    total is 439.95, whose double is 439.94999999999999; the left-to-right
    accumulation in doubles is 439.95000000000005. *)
Definition seeded_cart : list CartItem :=
  [mkCartItem "alice/headphones" "headphones" 1
     (Some (mkProduct "headphones" "Wireless Headphones" 19999 50));
   mkCartItem "alice/tshirt" "tshirt" 2
     (Some (mkProduct "tshirt" "Casual T-Shirt" 2999 100));
   mkCartItem "alice/coffee" "coffee" 2
     (Some (mkProduct "coffee" "Coffee Maker" 8999 25))].


(** The two values, as exact hexadecimal literals. *)
Example seeded_total_accumulated :
  Binary64.getTotalPrice (map of_item seeded_cart) = 0x1.b7f3333333334p+8%float.
Proof. reflexivity. Qed.

Example seeded_total_exact :
  Binary64.decimal (sum_line_totals seeded_cart) = 0x1.b7f3333333333p+8%float.
Proof. reflexivity. Qed.


(** C9, counterexample: the session user goes while an operation is in
    flight (the flag is up); the refresh of the effect empties the items
    and completes with the flag still up. *)
Definition in_flight_world : World Store.t :=
  mkWorld [mug_item] true (Store.mk [mug_row] [mug] []) [] [].

Lemma C9_refresh_without_user_leaves_flag_up :
  ~ clears_busy None Refresh in_flight_world.
Proof.
  unfold clears_busy. intros H. discriminate H.
Qed.

(** C2, counterexample: removeFromCart invoked with no session user issues
    its remote write and completes normally. *)
Lemma C2_remove_without_user_reaches_api :
  ~ rejects_unauthenticated (Remove "alice/mug") steady_world.
Proof.
  intros [w' [Run _]]. discriminate Run.
Qed.

Lemma C2_session_check_witness :
  exists c ok,
    write_of None (Update "alice/mug" 3) = Some c /\
    calls (snd (run None (Update "alice/mug" 3) steady_world))
    = calls steady_world ++ [mkCall c ok] /\
    fst (run None (Update "alice/mug" 3) steady_world) <> Throw not_logged_in.
Proof.
  exact (proj2 (C2_session_check_on_addToCart_only (Update "alice/mug" 3) steady_world)
               eq_refl).
Defined.

Lemma C3_delegation_witness :
  -1 <= 0 /\
  updateQuantity (Some alice) "alice/mug" (-1) steady_world
  = removeFromCart (Some alice) "alice/mug" steady_world.
Proof.
  split; [lia|].
  apply (C3_updateQuantity_nonpositive_is_remove (Some alice) "alice/mug" (-1)
           steady_world).
  lia.
Defined.

Lemma C4_refresh_failure_witness :
  exists w',
    refreshCart (Some alice) offline_world = (Normal tt, w') /\
    items w' = [mug_item] /\
    console w' = [("Error fetching cart:", Rejected "network error")].
Proof.
  apply (C4_refresh_failure_keeps_items alice offline_world
           (Store.mk [mug_row] [mug] []) "network error").
  reflexivity.
Defined.

Lemma C10_rejected_write_witness :
  exists w',
    run (Some alice) (Update "alice/mug" 5) offline_world
    = (Throw (Rejected "network error"), w') /\
    items w' = [mug_item] /\
    calls w' = [mkCall (UpdateCartItem "alice/mug" 5) false].
Proof.
  apply (C10_rejected_write_keeps_items (Some alice) (Update "alice/mug" 5)
           (UpdateCartItem "alice/mug" 5) offline_world
           (Store.mk [mug_row] [mug] []) "network error").
  - reflexivity.
  - reflexivity.
Defined.

(** * Further properties of the cart manager *)

Section Calls.
Context {Remote : Type} `{Api : api.CartApi Remote}.

Lemma refreshCart_calls (user : option User) (w : World Remote) :
  calls (snd (refreshCart user w)) = calls w ++ fetch_trace user (remote w).
Proof.
  destruct user as [u|]; cbn [fetch_trace].
  - destruct (api.getCartItems (user_id u) (remote w)) as [r [e|x]] eqn:E.
    + rewrite (refreshCart_rejected _ _ _ _ E). reflexivity.
    + rewrite (refreshCart_resolved _ _ _ _ E). reflexivity.
  - rewrite refreshCart_none, app_nil_r. reflexivity.
Qed.

Lemma refreshCart_console (user : option User) (w : World Remote) :
  map fst (console (snd (refreshCart user w)))
  = map fst (console w) ++ failure_labels (fetch_trace user (remote w)).
Proof.
  destruct user as [u|]; cbn [fetch_trace].
  - destruct (api.getCartItems (user_id u) (remote w)) as [r [e|x]] eqn:E.
    + rewrite (refreshCart_rejected _ _ _ _ E). cbn. rewrite map_app. reflexivity.
    + rewrite (refreshCart_resolved _ _ _ _ E). cbn. rewrite app_nil_r. reflexivity.
  - rewrite refreshCart_none. cbn. rewrite app_nil_r. reflexivity.
Qed.

Lemma run_calls (user : option User) (op : Op) (w : World Remote) :
  calls (snd (run user op w)) = calls w ++ trace user op w.
Proof.
  unfold trace. destruct (write_of user op) as [c|] eqn:W.
  - rewrite (run_write _ _ _ _ W).
    destruct (respond c (remote w)) as [r [e|[]]] eqn:E.
    + rewrite (write_rejected _ _ _ _ _ E). reflexivity.
    + rewrite (write_resolved _ _ _ _ E). cbn [snd calls resolves].
      rewrite refreshCart_calls. cbn [calls remote].
      rewrite <- app_assoc. reflexivity.
  - destruct op as [|p q|i q|i|]; cbn in W; try discriminate.
    + apply refreshCart_calls.
    + destruct user; [discriminate|]. cbn. rewrite app_nil_r. reflexivity.
    + cbn. rewrite app_nil_r. reflexivity.
Qed.

Lemma run_console (user : option User) (op : Op) (w : World Remote) :
  map fst (console (snd (run user op w)))
  = map fst (console w) ++ failure_labels (trace user op w).
Proof.
  unfold trace. destruct (write_of user op) as [c|] eqn:W.
  - rewrite (run_write _ _ _ _ W).
    destruct (respond c (remote w)) as [r [e|[]]] eqn:E.
    + rewrite (write_rejected _ _ _ _ _ E). cbn. rewrite map_app. reflexivity.
    + rewrite (write_resolved _ _ _ _ E). cbn [snd console resolves].
      rewrite refreshCart_console. reflexivity.
  - destruct op as [|p q|i q|i|]; cbn in W; try discriminate.
    + apply refreshCart_console.
    + destruct user; [discriminate|]. cbn. rewrite app_nil_r. reflexivity.
    + cbn. rewrite app_nil_r. reflexivity.
Qed.

Lemma write_is_scoped (user : option User) (op : Op) (c : ApiCall) :
  write_of user op = Some c -> scoped user c = true /\ is_write c = true.
Proof.
  destruct op as [|p q|i q|i|], user as [u|]; cbn; try discriminate;
    intros [= <-]; cbn; try destruct (q <=? 0); cbn;
    rewrite ?String.eqb_refl; auto.
Qed.

Lemma fetch_trace_scoped (user : option User) (r : Remote) :
  Forall (fun c => scoped user (request c) = true) (fetch_trace user r)
  /\ (List.length (fetch_trace user r) <= 1)%nat.
Proof.
  destruct user as [u|]; cbn; split; auto.
  constructor; [apply String.eqb_refl|constructor].
Qed.

(** X1: The completion of every operation: addToCart without a session user
    throws the "User must be logged in" error; an operation whose remote
    write is rejected throws that rejection; every other run completes
    normally, whatever the getCartItems call of its refresh step did. *)
Theorem completion_depends_on_write_only
    (user : option User) (op : Op) (w : World Remote) :
  fst (run user op w)
  = match write_of user op with
    | Some c =>
        match snd (respond c (remote w)) with
        | inl failure => Throw (Rejected failure)
        | inr _ => Normal tt
        end
    | None =>
        match op with
        | Add _ _ => Throw not_logged_in
        | _ => Normal tt
        end
    end.
Proof.
  destruct (write_of user op) as [c|] eqn:W.
  - rewrite (run_write _ _ _ _ W).
    destruct (respond c (remote w)) as [r [e|[]]] eqn:E.
    + rewrite (write_rejected _ _ _ _ _ E). reflexivity.
    + rewrite (write_resolved _ _ _ _ E). reflexivity.
  - destruct op as [|p q|i q|i|]; cbn in W; try discriminate.
    + apply refreshCart_normal.
    + destruct user; [discriminate|]. reflexivity.
    + reflexivity.
Qed.

(** X2: Every operation adds at most two remote calls to the log, and each
    call that names a user (getCartItems, addToCart) names the session
    user of the render the operation belongs to; with no session user no
    such call is made at all. *)
Theorem calls_are_scoped_to_session_user
    (user : option User) (op : Op) (w : World Remote) :
  exists issued,
    calls (snd (run user op w)) = calls w ++ issued
    /\ (List.length issued <= 2)%nat
    /\ Forall (fun c => scoped user (request c) = true) issued.
Proof.
  exists (trace user op w). split; [apply run_calls|].
  unfold trace. destruct (write_of user op) as [c|] eqn:W.
  - destruct (write_is_scoped _ _ _ W) as [S _].
    destruct (respond c (remote w)) as [r res].
    destruct (fetch_trace_scoped user r) as [F L].
    destruct (resolves res); cbn [List.length]; split; try lia; auto.
  - destruct op; cbn; auto.
    destruct (fetch_trace_scoped user (remote w)) as [F L]. split; [lia|auto].
Qed.

(** X3: The calls one operation issues have one of three shapes: none; a single
    call; or a resolved write followed by the getCartItems of the session
    user.  So no operation writes twice, reads twice, reads before it
    writes, or reads after a rejected write. *)
Theorem write_then_at_most_one_read
    (user : option User) (op : Op) (w : World Remote) :
  exists issued,
    calls (snd (run user op w)) = calls w ++ issued
    /\ (issued = []
        \/ (exists a, issued = [a])
        \/ (exists c u ok,
               user = Some u /\ is_write c = true
               /\ issued = [mkCall c true; mkCall (GetCartItems (user_id u)) ok])).
Proof.
  exists (trace user op w). split; [apply run_calls|].
  unfold trace. destruct (write_of user op) as [c|] eqn:W.
  - destruct (write_is_scoped _ _ _ W) as [_ Wr].
    destruct (respond c (remote w)) as [r res].
    destruct (resolves res); [|right; left; eauto].
    destruct user as [u|]; cbn [fetch_trace].
    + right; right. eauto 7.
    + right; left; eauto.
  - destruct op; auto.
    destruct user as [u|]; cbn [fetch_trace]; [right; left; eauto|auto].
Qed.

Lemma run_keeps_logged (user : option User) (op : Op) (w : World Remote) :
  logged w -> logged (snd (run user op w)).
Proof.
  unfold logged, failure_labels. intros L.
  rewrite run_console, run_calls, filter_app, map_app, L. reflexivity.
Qed.

(** X4: Throughout any session started from the initial state, the console of
    the cart manager holds exactly one line per rejected remote call, in
    the order of the calls, each under the label of the call that failed;
    nothing else is logged, the "User must be logged in" error included. *)
Theorem every_rejection_logged_once
    (r : Remote) (script : list (option User * Op)) :
  logged (exec script (initial r)).
Proof.
  assert (G : forall w : World Remote, logged w -> logged (exec script w)).
  { induction script as [|[user op] rest IH]; intros w L; cbn [exec].
    - exact L.
    - apply IH, run_keeps_logged, L. }
  apply G. reflexivity.
Qed.

(** X5: refreshCart under a session user issues exactly one remote call, the
    getCartItems of that user; when it resolves the local item set is
    replaced wholesale by the response (null read as the empty sequence),
    and when it is rejected the local item set stays. *)
Theorem refresh_is_one_scoped_read (u : User) (w : World Remote) :
  let w' := snd (onUserChange (Some u) w) in
  let res := snd (api.getCartItems (user_id u) (remote w)) in
  calls w' = calls w ++ [mkCall (GetCartItems (user_id u)) (resolves res)]
  /\ items w' = match res with
                | inr cartItems => or_empty cartItems
                | inl _ => items w
                end
  /\ remote w' = fst (api.getCartItems (user_id u) (remote w)).
Proof.
  unfold onUserChange. cbn zeta.
  destruct (api.getCartItems (user_id u) (remote w)) as [r [e|x]] eqn:E.
  - rewrite (refreshCart_rejected _ _ _ _ E). cbn. auto.
  - rewrite (refreshCart_resolved _ _ _ _ E). cbn. auto.
Qed.

(** X6: The stale path of a write: when the remote write resolves and the
    getCartItems call that follows is rejected, the operation completes
    normally, the local item set is the one held before the operation,
    and the only trace of the failure is the "Error fetching cart:" line. *)
Theorem rejected_fetch_after_write_is_silent
    (u : User) (op : Op) (c : ApiCall) (w : World Remote)
    (r r1 : Remote) (e : ApiFailure) :
  write_of (Some u) op = Some c ->
  respond c (remote w) = (r, inr tt) ->
  api.getCartItems (user_id u) r = (r1, inl e) ->
  run (Some u) op w
  = (Normal tt,
     mkWorld (items w) false r1
             (calls w ++ [mkCall c true; mkCall (GetCartItems (user_id u)) false])
             (console w ++ [("Error fetching cart:", Rejected e)])).
Proof.
  intros W E G.
  rewrite (run_write _ _ _ _ W), (write_resolved _ _ _ _ E). cbn zeta.
  rewrite (refreshCart_rejected u _ r1 e); [|exact G].
  cbn. rewrite <- app_assoc. reflexivity.
Qed.

(** X7: With no session user, every operation that completes normally leaves
    the local cart empty: no items, a total count of 0 and a total price
    of 0. *)
Theorem no_session_success_means_empty_cart (op : Op) (w w' : World Remote) :
  run None op w = (Normal tt, w') ->
  items w' = [] /\ getTotalItems w' = 0 /\ getTotalPrice w' = 0.
Proof.
  intros Run.
  assert (I : items w' = []).
  { destruct (write_of None op) as [c|] eqn:W.
    - rewrite (run_write _ _ _ _ W) in Run.
      destruct (respond c (remote w)) as [r [e|[]]] eqn:E.
      + rewrite (write_rejected _ _ _ _ _ E) in Run. discriminate.
      + rewrite (write_resolved _ _ _ _ E) in Run.
        injection Run as <-. reflexivity.
    - destruct op as [|p q|i q|i|]; cbn in W; try discriminate;
        cbn in Run; try discriminate; injection Run as <-; reflexivity. }
  unfold getTotalItems, getTotalPrice. rewrite I. auto.
Qed.

(** X8: refreshCart is idempotent: of two refreshes in a row under the same
    session user whose getCartItems calls both resolve, the second leaves
    the local item set as the first left it, reads of the API being
    repeatable. *)
Theorem refresh_twice_is_refresh_once
    (u : User) (w w1 w2 : World Remote) :
  repeatable_reads ->
  refreshCart (Some u) w = (Normal tt, w1) ->
  fetched_last u w1 ->
  refreshCart (Some u) w1 = (Normal tt, w2) ->
  fetched_last u w2 ->
  items w2 = items w1.
Proof.
  intros Rep R1 L1 R2 L2. unfold fetched_last in *.
  destruct (api.getCartItems (user_id u) (remote w)) as [r [e|x]] eqn:G1.
  - rewrite (refreshCart_rejected _ _ _ _ G1) in R1. injection R1 as <-.
    cbn in L1. rewrite last_last in L1. discriminate.
  - rewrite (refreshCart_resolved _ _ _ _ G1) in R1. injection R1 as <-.
    cbn [remote] in R2.
    destruct (api.getCartItems (user_id u) r) as [r2 [e|y]] eqn:G2.
    + rewrite (refreshCart_rejected u _ r2 e) in R2; [|exact G2].
      injection R2 as <-. cbn in L2. rewrite last_last in L2. discriminate.
    + rewrite (refreshCart_resolved u _ r2 y) in R2; [|exact G2].
      injection R2 as <-. cbn. f_equal. symmetry. exact (Rep _ _ _ _ _ _ G1 G2).
Qed.
End Calls.

(** * Bounds on the aggregates *)

Lemma sum_quantities_lower (l : list CartItem) :
  Forall (fun item => 1 <= quantity item) l ->
  Z.of_nat (List.length l) <= sum_quantities l.
Proof.
  induction 1 as [|item rest Q _ IH]; cbn [List.length sum_quantities]; lia.
Qed.

Lemma sum_line_totals_nonneg (l : list CartItem) :
  Forall well_priced l -> 0 <= sum_line_totals l.
Proof.
  induction 1 as [|item rest [Q P] _ IH]; cbn [sum_line_totals]; [lia|].
  unfold line_total. destruct (product item) as [p|]; nia.
Qed.

(** X9: When every line of the cart has a quantity of at least 1,
    getTotalItems() is at least the number of lines; in particular a cart
    that is not empty has a positive count. *)
Theorem getTotalItems_at_least_line_count {Remote : Type} (w : World Remote) :
  Forall (fun item => 1 <= quantity item) (items w) ->
  Z.of_nat (List.length (items w)) <= getTotalItems w.
Proof.
  intros Q. unfold getTotalItems. rewrite fold_quantities.
  apply sum_quantities_lower in Q. lia.
Qed.

(** X10: When no line has a negative quantity or a negative price,
    getTotalPrice() is not negative, whether or not the product snapshots
    are present. *)
Theorem getTotalPrice_nonneg {Remote : Type} (w : World Remote) :
  Forall well_priced (items w) -> 0 <= getTotalPrice w.
Proof.
  intros P. unfold getTotalPrice. rewrite fold_line_totals.
  apply sum_line_totals_nonneg in P. lia.
Qed.

(** * ProductCard *)

Section Card.
Context {Remote : Type} `{Api : api.CartApi Remote}.

Lemma addToCart_write (u : User) (productId : string) (q : option Z) (w : World Remote) :
  addToCart (Some u) productId q w
  = write_then_refresh (Some u)
      (AddToCart (user_id u) productId (match q with Some n => n | None => 1 end)) w.
Proof. exact (run_write (Some u) (Add productId q) _ w eq_refl). Qed.

Lemma handleAddToCart_calls (u : User) (product : Product) (w : World Remote) :
  calls (snd (handleAddToCart (Some u) product w))
  = calls (snd (addToCart (Some u) (product_id product) (Some 1) w)).
Proof.
  unfold handleAddToCart, try_catch. rewrite !addToCart_write.
  destruct (respond (AddToCart (user_id u) (product_id product) 1) (remote w))
    as [r [e|[]]] eqn:E.
  - rewrite (write_rejected _ _ _ _ _ E). reflexivity.
  - rewrite (write_resolved _ _ _ _ E). reflexivity.
Qed.

(** X11: The click handler of the add-to-cart button never throws: with no
    session user it returns at once and changes nothing (no remote call,
    no log line), and with one it catches whatever addToCart throws. *)
Theorem handleAddToCart_never_throws
    (user : option User) (product : Product) (w : World Remote) :
  fst (handleAddToCart user product w) = Normal tt
  /\ handleAddToCart None product w = (Normal tt, w).
Proof.
  split; [|reflexivity].
  destruct user as [u|]; [|reflexivity].
  unfold handleAddToCart, try_catch. rewrite addToCart_write.
  destruct (respond (AddToCart (user_id u) (product_id product) 1) (remote w))
    as [r [e|[]]] eqn:E.
  - rewrite (write_rejected _ _ _ _ _ E). reflexivity.
  - rewrite (write_resolved _ _ _ _ E). reflexivity.
Qed.

(** X12: Under a session user the click handler is addToCart(product.id) with
    the default quantity 1, for every product, whatever its stock: it
    leaves the items, the busy flag, the remote store and the call log
    that addToCart(product.id, 1) leaves. *)
Theorem handleAddToCart_adds_one
    (u : User) (product : Product) (w : World Remote) :
  let clicked := snd (handleAddToCart (Some u) product w) in
  let added := snd (addToCart (Some u) (product_id product) (Some 1) w) in
  items clicked = items added
  /\ loading clicked = loading added
  /\ remote clicked = remote added
  /\ calls clicked = calls added.
Proof.
  unfold handleAddToCart, try_catch. rewrite !addToCart_write.
  destruct (respond (AddToCart (user_id u) (product_id product) 1) (remote w))
    as [r [e|[]]] eqn:E.
  - rewrite (write_rejected _ _ _ _ _ E). cbn. auto.
  - rewrite (write_resolved _ _ _ _ E). cbn. auto.
Qed.

(** X13: When the addToCart write is rejected, the click handler completes
    normally with the item set untouched, and the rejection is on the
    console twice under the same label: once by the cart manager before
    it rethrows, once by the handler that catches it. *)
Theorem handleAddToCart_logs_rejection_twice
    (u : User) (product : Product) (w : World Remote) (r : Remote) (e : ApiFailure) :
  api.addToCart (user_id u) (product_id product) 1 (remote w) = (r, inl e) ->
  handleAddToCart (Some u) product w
  = (Normal tt,
     mkWorld (items w) false r
             (calls w ++ [mkCall (AddToCart (user_id u) (product_id product) 1) false])
             (console w ++ [("Error adding to cart:", Rejected e);
                            ("Error adding to cart:", Rejected e)])).
Proof.
  intros E. unfold handleAddToCart, try_catch. rewrite addToCart_write.
  rewrite (write_rejected _ _ _ r e) by exact E.
  unfold console_error. cbn. rewrite <- app_assoc. reflexivity.
Qed.

(** X14: The "Only n left" badge and the "Out of Stock" overlay are never shown
    together; the badge is shown exactly for a stock of 1 to 9 and the
    overlay exactly for a stock of 0, so a negative stock shows neither. *)
Theorem stock_badges_are_exclusive (product : Product) :
  lowStockBadge product && outOfStockOverlay product = false
  /\ (lowStockBadge product = true <-> 1 <= stock_quantity product <= 9)
  /\ (outOfStockOverlay product = true <-> stock_quantity product = 0).
Proof.
  unfold lowStockBadge, outOfStockOverlay. rewrite Z.gtb_ltb.
  destruct (Z.ltb_spec (stock_quantity product) 10),
           (Z.ltb_spec 0 (stock_quantity product)),
           (Z.eqb_spec (stock_quantity product) 0);
    cbn; repeat split; intros; try discriminate; try lia.
Qed.

(** X15: Whenever the add-to-cart button is enabled there is a session user and
    the stock is not 0, and a click then issues api.addToCart for that
    user and product with quantity 1 as its first remote call. *)
Theorem enabled_button_reaches_api
    (user : option User) (product : Product) (w : World Remote) :
  addDisabled user product = false ->
  stock_quantity product <> 0
  /\ exists u ok rest,
       user = Some u
       /\ calls (snd (handleAddToCart user product w))
          = calls w
            ++ mkCall (AddToCart (user_id u) (product_id product) 1) ok :: rest.
Proof.
  unfold addDisabled. intros D.
  apply orb_false_elim in D as [S U].
  split; [apply Z.eqb_neq, S|].
  destruct user as [u|]; [|discriminate].
  rewrite handleAddToCart_calls.
  change (addToCart (Some u) (product_id product) (Some 1) w)
    with (run (Some u) (Add (product_id product) (Some 1)) w).
  rewrite run_calls. unfold trace. cbn [write_of].
  destruct (respond _ (remote w)) as [r res].
  destruct (resolves res); eauto 6.
Qed.
End Card.

(** * The further properties on the in-memory store *)

Lemma rejected_fetch_after_write_witness :
  run (Some alice) (Add "mug" (Some 2)) flaky_world
  = (Normal tt,
     mkWorld [] false (Store.mk [mug_row] [mug] [])
             [mkCall (AddToCart "alice" "mug" 2) true;
              mkCall (GetCartItems "alice") false]
             [("Error fetching cart:", Rejected "network error")]).
Proof.
  apply (rejected_fetch_after_write_is_silent alice (Add "mug" (Some 2))
           (AddToCart "alice" "mug" 2) flaky_world
           (Store.mk [mug_row] [mug] [true]) (Store.mk [mug_row] [mug] [])
           "network error").
  - reflexivity.
  - reflexivity.
  - reflexivity.
Defined.

(** A line of alice's held locally, the network up. *)
Definition stale_world : World Store.t :=
  mkWorld [mug_item] false (Store.mk [mug_row] [mug] []) [] [].

Lemma no_session_success_witness :
  let w' := snd (run None (Remove "alice/mug") stale_world) in
  items w' = [] /\ getTotalItems w' = 0 /\ getTotalPrice w' = 0.
Proof.
  apply (no_session_success_means_empty_cart (Remove "alice/mug") stale_world).
  reflexivity.
Defined.

Lemma refresh_twice_witness :
  let w1 := snd (refreshCart (Some alice) steady_world) in
  let w2 := snd (refreshCart (Some alice) w1) in
  items w2 = items w1.
Proof.
  apply (refresh_twice_is_refresh_once alice steady_world).
  - exact store_reads_repeatable.
  - reflexivity.
  - reflexivity.
  - reflexivity.
  - reflexivity.
Defined.

(** Two lines, one of them without its product snapshot. *)
Definition two_lines : World Store.t :=
  mkWorld [mug_item; orphan_item] false (Store.mk [] [] []) [] [].

Lemma getTotalItems_bound_witness :
  Z.of_nat (List.length (items two_lines)) <= getTotalItems two_lines.
Proof.
  apply (getTotalItems_at_least_line_count two_lines).
  repeat constructor; cbn; lia.
Defined.

Lemma getTotalPrice_nonneg_witness :
  0 <= getTotalPrice two_lines.
Proof.
  apply (getTotalPrice_nonneg two_lines).
  repeat constructor; cbn; lia.
Defined.

Lemma handleAddToCart_rejection_witness :
  handleAddToCart (Some alice) mug offline_world
  = (Normal tt,
     mkWorld [mug_item] false (Store.mk [mug_row] [mug] [])
             [mkCall (AddToCart "alice" "mug" 1) false]
             [("Error adding to cart:", Rejected "network error");
              ("Error adding to cart:", Rejected "network error")]).
Proof.
  apply (handleAddToCart_logs_rejection_twice alice mug offline_world
           (Store.mk [mug_row] [mug] []) "network error").
  reflexivity.
Defined.

Lemma enabled_button_witness :
  stock_quantity mug <> 0
  /\ exists u ok rest,
       Some alice = Some u
       /\ calls (snd (handleAddToCart (Some alice) mug steady_world))
          = calls steady_world
            ++ mkCall (AddToCart (user_id u) (product_id mug) 1) ok :: rest.
Proof.
  apply (enabled_button_reaches_api (Some alice) mug steady_world).
  reflexivity.
Defined.
